(** * Medical Image Analyzer (app.py): a shallow embedding

    app.py is a Streamlit script.  Streamlit re-runs the whole script on
    every interaction; what survives between two runs is the resource cache
    behind [@st.cache_resource], [st.session_state] and the file system.
    One run is modelled as a computation in a state-and-exception monad
    over [World]; an uncaught Python exception ends the run and leaves the
    world as it was at the point of the raise (app.py has no try/except/
    finally anywhere).

    PIL, the YOLO model and its weights are external: they are parameters
    of the development ([Libraries]). *)

From Stdlib Require Import Strings.Byte QArith Qcanon Qround.
From stdpp Require Import gmap strings list fin_maps numbers.

Local Open Scope Z_scope.

(** ** Python values used by the script *)

(** A file-system path; [tempfile] picks a name that does not exist yet. *)
Abbreviation path := nat.

(** Uncaught exceptions that can end a run, named after what Python raises
    at the corresponding line of app.py. *)
Inductive exn : Type :=
| ModelLoadFailure                (* line 69: YOLO("best.pt") raised *)
| UnidentifiedImageError          (* line 84: Image.open cannot identify *)
| ImageLoadFailure                (* line 85: decoding the pixel data failed *)
| CannotWriteMode                 (* line 93: OSError, cannot write mode as JPEG *)
| InferenceFailure                (* line 94: the model call raised *)
| IndexError                      (* results[0] / cls[0] on an empty sequence *)
| PlotFailure                     (* line 99: results[0].plot() raised *)
| KeyError (cls_id : Z)           (* model.names[cls_id], no such key *)
| FileNotFoundError (p : path).   (* line 156: os.remove on a missing file *)

#[global] Instance exn_eq_dec : EqDecision exn.
Proof. solve_decision. Defined.

(** Result of an expression that may raise. *)
Inductive res (A : Type) : Type :=
| Ok (a : A)
| Raise (e : exn).
Arguments Ok {A} a.
Arguments Raise {A} e.

Definition res_bind {A B} (r : res A) (k : A -> res B) : res B :=
  match r with
  | Ok a => k a
  | Raise e => Raise e
  end.

Declare Scope res_scope.
Delimit Scope res_scope with res.
Notation "'try' x <- r ; k" := (res_bind r (fun x => k))
  (at level 10, x name, r at level 100, k at level 200) : res_scope.

(** One element of [r.boxes]: [box.cls] and [box.conf] are one-element
    tensors; only their element [0] is read.  Their values are finite
    floats, of which the script uses the order and the integer part only,
    so they are kept as rationals. *)
Record Box : Type := mkBox {
  cls : Qc;
  conf : Qc
}.

(** One element of [results]: its boxes in the order the model emitted them,
    and what [plot()] gives: the annotated pixel array, or [None] when it
    raises. *)
Record Results (Array : Type) : Type := mkResults {
  boxes : list Box;
  plot : option Array
}.
Arguments mkResults {Array} boxes plot.
Arguments boxes {Array} r.
Arguments plot {Array} r.

(** [int(x)] on a float: truncation toward zero. *)
Definition py_int (x : Qc) : Z :=
  Z.quot (Qnum (this x)) (Zpos (Qden (this x))).

(** [model.names[k]]: a dict from class index to label. *)
Definition names_getitem (names : gmap Z string) (k : Z) : res string :=
  match names !! k with
  | Some s => Ok s
  | None => Raise (KeyError k)
  end.

(** [xs[0]] *)
Definition item0 {A} (xs : list A) : res A :=
  match xs with
  | x :: _ => Ok x
  | [] => Raise IndexError
  end.

(** ** Tab 1, "Detected Classes" (lines 124-128) *)

(** What one [st.write] of the loop shows: the label and the confidence
    (the rounding of [{conf:.2f}] is presentation and is left out). *)
Record Detection : Type := mkDetection {
  class_id : Z;
  class_name : string;
  confidence : Qc
}.

(** Body of the inner loop for one [box]. *)
Definition write_box (names : gmap Z string) (box : Box) : res Detection :=
  let cls_id := py_int (cls box) in
  let conf := conf box in
  (try name <- names_getitem names cls_id;
   Ok (mkDetection cls_id name conf))%res.

(** [for box in r.boxes: ...] *)
Fixpoint write_boxes (names : gmap Z string) (bs : list Box)
  : res (list Detection) :=
  match bs with
  | [] => Ok []
  | box :: bs' =>
      (try d <- write_box names box;
       try ds <- write_boxes names bs';
       Ok (d :: ds))%res
  end.

(** [for r in results: for box in r.boxes: ...] *)
Fixpoint detected_classes {Array} (names : gmap Z string)
    (results : list (Results Array)) : res (list Detection) :=
  match results with
  | [] => Ok []
  | r :: results' =>
      (try ds <- write_boxes names (boxes r);
       try ds' <- detected_classes names results';
       Ok (ds ++ ds'))%res
  end.

(** ** Tab 1, "Detection Summary" (lines 133-139) *)

Record Summary : Type := mkSummary {
  total_detections : nat;
  top_class : string;
  top_conf : Qc
}.

Definition detection_summary {Array} (names : gmap Z string)
    (results : list (Results Array)) : res Summary :=
  (try r0 <- item0 results;
   let total_detections := length (boxes r0) in
   try top_class <-
     (if decide (0 < total_detections)%nat
      then (try b0 <- item0 (boxes r0); names_getitem names (py_int (cls b0)))
      else Ok "N/A"%string);
   try top_conf <-
     (if decide (0 < total_detections)%nat
      then (try b0 <- item0 (boxes r0); Ok (conf b0))
      else Ok 0%Qc);
   Ok (mkSummary total_detections top_class top_conf))%res.

(** The detections the model returned, in the order it returned them. *)
Definition raw_detections {Array} (results : list (Results Array))
  : list Box :=
  flat_map boxes results.

(** [d] is what the listing shows for [box]: same class index, same
    confidence, and the label [model.names] has for that index. *)
Definition shows (names : gmap Z string) (box : Box) (d : Detection) : Prop :=
  class_id d = py_int (cls box) /\ confidence d = conf box /\
  names !! class_id d = Some (class_name d).

(** Every class index among [bs] has a label. *)
Definition labelled (names : gmap Z string) (bs : list Box) : Prop :=
  Forall (fun b => is_Some (names !! py_int (cls b))) bs.

(** Modelled from the spec: step 5 of analyze(), the threshold filter, which
    app.py does not have (the script takes no confidence threshold and calls
    the model with the library's default).  In the spec's words: discard any
    detection whose confidence is strictly below [confidence_threshold]; the
    remaining detections keep the emission order. *)
Definition spec_filter_by_threshold (confidence_threshold : Qc)
    (raw : list Box) : list Box :=
  filter (fun b => ~ (conf b < confidence_threshold)%Qc) raw.

(** Modelled from the spec: [total_count], the length of the filtered
    detections (step 7 of analyze()). *)
Definition spec_total_count (confidence_threshold : Qc) (raw : list Box)
  : nat :=
  length (spec_filter_by_threshold confidence_threshold raw).

(** The exceptions with which decoding an upload fails: the spec's
    DecodeError. *)
Definition DecodeError (e : exn) : Prop :=
  e = UnidentifiedImageError \/ e = ImageLoadFailure.

(** ** The external libraries *)

(** What the script takes from PIL and ultralytics.  An [option] result is
    [None] where the call raises. *)
Record Libraries (Image Array Model : Type) : Type := mkLibraries {
  (** [YOLO(model_path)]: reads the weights. *)
  YOLO : string -> option Model;
  (** [model.names] *)
  names : Model -> gmap Z string;
  (** [model(file)], given the bytes of the file it is pointed at. *)
  predict : Model -> list byte -> option (list (Results Array));
  (** [Image.open(uploaded_file)]: identifies the format from the header. *)
  Image_open : list byte -> option Image;
  (** [st.image(image, ...)]: displaying forces the pixel data to be
      decoded; [false] when that raises (truncated data). *)
  st_image : Image -> bool;
  (** [image.save(name)] for a name ending in ".jpg": the JPEG encoding, or
      [None] when the image's mode cannot be written as JPEG. *)
  Image_save_jpg : Image -> option (list byte);
  (** [Image.fromarray(result_img)] *)
  Image_fromarray : Array -> Image
}.
Arguments YOLO {Image Array Model} _ _.
Arguments names {Image Array Model} _ _.
Arguments predict {Image Array Model} _ _ _.
Arguments Image_open {Image Array Model} _ _.
Arguments st_image {Image Array Model} _ _.
Arguments Image_save_jpg {Image Array Model} _ _.
Arguments Image_fromarray {Image Array Model} _ _.

(** ** What persists between runs *)

(** The four keys the script stores in [st.session_state] (lines 103-106);
    they are written together and read together. *)
Record Session (Image Array : Type) : Type := mkSession {
  s_results : list (Results Array);
  s_result_img : Array;
  s_result_pil : Image;
  s_temp_file_path : path
}.
Arguments mkSession {Image Array} _ _ _ _.
Arguments s_results {Image Array} _.
Arguments s_result_img {Image Array} _.
Arguments s_result_pil {Image Array} _.
Arguments s_temp_file_path {Image Array} _.

Record World (Image Array Model : Type) : Type := mkWorld {
  (** the entry of [load_model] in the [st.cache_resource] cache *)
  cache : option Model;
  (** how many times the body of [load_model] has run (bookkeeping) *)
  loads : nat;
  (** [st.session_state]; [None] while the key 'results' is not in it *)
  session_state : option (Session Image Array);
  (** the files that exist, with their contents *)
  files : gmap path (list byte);
  (** the calls of the model, latest first: the file it was pointed at and
      the bytes it found there (bookkeeping) *)
  inferences : list (path * option (list byte))
}.
Arguments mkWorld {Image Array Model} _ _ _ _ _.
Arguments cache {Image Array Model} _.
Arguments loads {Image Array Model} _.
Arguments session_state {Image Array Model} _.
Arguments files {Image Array Model} _.
Arguments inferences {Image Array Model} _.

(** What tab 1 shows when it is rendered. *)
Record Tab1 : Type := mkTab1 {
  shown : list Detection;
  summary : Summary
}.

Section App.
Context {Image Array Model : Type}.
Variable lib : Libraries Image Array Model.

Abbreviation W := (World Image Array Model).

(** A run, or a part of one: reads and updates the world; returns a value
    or raises. *)
Definition M (A : Type) : Type := W -> res A * W.

Definition ret {A} (a : A) : M A := fun w => (Ok a, w).
Definition raise {A} (e : exn) : M A := fun w => (Raise e, w).
Definition bind {A B} (c : M A) (k : A -> M B) : M B :=
  fun w =>
    match c w with
    | (Ok a, w') => k a w'
    | (Raise e, w') => (Raise e, w')
    end.
Definition lift {A} (r : res A) : M A := fun w => (r, w).
Definition of_option {A} (o : option A) (e : exn) : M A :=
  match o with
  | Some a => ret a
  | None => raise e
  end.

Notation "'do' x <- c ; k" := (bind c (fun x => k))
  (at level 10, x name, c at level 100, k at level 200).
Notation "'exec' c ; k" := (bind c (fun _ => k))
  (at level 10, c at level 100, k at level 200).

(** *** Lines 66-71: the cached model *)

Definition load_model : M Model :=
  fun w =>
    match cache w with
    | Some m => (Ok m, w)
    | None =>
        match YOLO lib "best.pt" with
        | Some m =>
            (Ok m, mkWorld (Some m) (S (loads w)) (session_state w)
                           (files w) (inferences w))
        | None => (Raise ModelLoadFailure, w)
        end
    end.

(** *** Lines 92-94: the temporary file and the model call *)

(** [tempfile.NamedTemporaryFile(delete=False, suffix=".jpg")]: creates an
    empty file under a name that did not exist.  Leaving the [with] block
    closes the file and, because of [delete=False], does not remove it. *)
Definition NamedTemporaryFile : M path :=
  fun w =>
    let p := fresh (dom (files w)) in
    (Ok p, mkWorld (cache w) (loads w) (session_state w)
                   (<[p := []]> (files w)) (inferences w)).

(** [image.save(temp_file.name)] *)
Definition Image_save (image : Image) (p : path) : M unit :=
  fun w =>
    match Image_save_jpg lib image with
    | Some data =>
        (Ok tt, mkWorld (cache w) (loads w) (session_state w)
                        (<[p := data]> (files w)) (inferences w))
    | None => (Raise CannotWriteMode, w)
    end.

(** [model(temp_file.name)] *)
Definition call_model (model : Model) (p : path)
  : M (list (Results Array)) :=
  fun w =>
    let w' := mkWorld (cache w) (loads w) (session_state w) (files w)
                      ((p, files w !! p) :: inferences w) in
    match files w !! p with
    | Some data =>
        match predict lib model data with
        | Some results => (Ok results, w')
        | None => (Raise InferenceFailure, w')
        end
    | None => (Raise (FileNotFoundError p), w')
    end.

(** [results[0].plot()] *)
Definition plot_first (results : list (Results Array)) : M Array :=
  do r0 <- lift (item0 results);
  of_option (plot r0) PlotFailure.

(** Lines 103-106 *)
Definition store_session (s : Session Image Array) : M unit :=
  fun w =>
    (Ok tt, mkWorld (cache w) (loads w) (Some s) (files w) (inferences w)).

(** *** Lines 80-106: the left column *)

Definition analyze_image (model : Model) (image : Image) : M unit :=
  do temp_file <- NamedTemporaryFile;
  exec Image_save image temp_file;
  do results <- call_model model temp_file;
  do result_img <- plot_first results;
  let result_pil := Image_fromarray lib result_img in
  store_session (mkSession results result_img result_pil temp_file).

Definition col1 (model : Model) (uploaded_file : option (list byte))
    (button : bool) : M unit :=
  match uploaded_file with
  | None => ret tt
  | Some bytes =>
      do image <- of_option (Image_open lib bytes) UnidentifiedImageError;
      exec (if st_image lib image then ret tt else raise ImageLoadFailure);
      if button then analyze_image model image else ret tt
  end.

(** *** Lines 108-156: the right column *)

(** [os.remove(temp_file_path)] *)
Definition os_remove (p : path) : M unit :=
  fun w =>
    match files w !! p with
    | Some _ =>
        (Ok tt, mkWorld (cache w) (loads w) (session_state w)
                        (delete p (files w)) (inferences w))
    | None => (Raise (FileNotFoundError p), w)
    end.

(** Lines 142-144 re-encode [result_pil], an RGB image built from the
    plotted array, into a memory buffer; and lines 147-154 print
    [model.names]: neither raises nor touches the world. *)
Definition col2 (model : Model) : M (option Tab1) :=
  fun w =>
    match session_state w with
    | None => (Ok None, w)
    | Some s =>
        (do ds <- lift (detected_classes (names lib model) (s_results s));
         do sm <- lift (detection_summary (names lib model) (s_results s));
         exec os_remove (s_temp_file_path s);
         ret (Some (mkTab1 ds sm))) w
    end.

(** *** One run of the script *)

Definition script (uploaded_file : option (list byte)) (button : bool)
  : M (option Tab1) :=
  do model <- load_model;
  exec col1 model uploaded_file button;
  col2 model.

(** *** Worlds a run goes through *)

(** The name [NamedTemporaryFile] picks in world [w]. *)
Definition tmp (w : W) : path := fresh (dom (files w)).

(** The world after lines 92-94 went through: the temporary file holds
    the JPEG encoding and the model has been called on it. *)
Definition after_inference (w : W) (data : list byte) : W :=
  mkWorld (cache w) (loads w) (session_state w)
          (<[tmp w := data]> (files w))
          ((tmp w, Some data) :: inferences w).

(** The world after lines 92-106 went through. *)
Definition after_analysis (w : W) (data : list byte)
    (results : list (Results Array)) (arr : Array) : W :=
  mkWorld (cache w) (loads w)
          (Some (mkSession results arr (Image_fromarray lib arr) (tmp w)))
          (<[tmp w := data]> (files w))
          ((tmp w, Some data) :: inferences w).

(** The upload cannot be decoded: [Image.open] does not identify it, or
    it does and the pixel data cannot be read (truncated input). *)
Definition undecodable (bytes : list byte) : Prop :=
  match Image_open lib bytes with
  | None => True
  | Some image => st_image lib image = false
  end.

End App.

(** ** Reruns and what they preserve *)

Section Reruns.
Context {Image Array Model : Type}.
Variable lib : Libraries Image Array Model.

(** Streamlit runs the script once per interaction (what the uploader holds,
    and whether "Analyze" is the widget that was clicked); each run starts
    in the world the previous one left, whether that one raised or not. *)
Fixpoint reruns (inputs : list (option (list byte) * bool))
    (w : World Image Array Model) : World Image Array Model :=
  match inputs with
  | [] => w
  | (uploaded_file, button) :: inputs' =>
      reruns inputs' (script lib uploaded_file button w).2
  end.

(** The bookkeeping of [load_model]: the body has run once when a model is
    cached and not at all, successfully, when none is. *)
Definition load_inv (w : World Image Array Model) : Prop :=
  match cache w with
  | Some _ => loads w = 1%nat
  | None => loads w = 0%nat
  end.

(** What lines 99-106 establish about a stored session: [results[0]]
    exists, [result_img] is its plot and [result_pil] the image made of
    it. *)
Definition session_wf (w : World Image Array Model) : Prop :=
  forall s, session_state w = Some s ->
    exists r0, s_results s !! 0%nat = Some r0 /\
               plot r0 = Some (s_result_img s) /\
               s_result_pil s = Image_fromarray lib (s_result_img s).

(** The upload, if there is one, gets through lines 84-85. *)
Definition decodes (uploaded_file : option (list byte)) : Prop :=
  match uploaded_file with
  | None => True
  | Some bytes =>
      exists image, Image_open lib bytes = Some image /\
                    st_image lib image = true
  end.

End Reruns.

(** ** A test double for the libraries

    A small concrete instance of [Libraries], used to run the script on
    concrete uploads.  An upload is two bytes: a format tag and a scene. *)
Module Double.

Inductive Mode : Type := RGB | RGBA.

Record Img : Type := mkImg {
  mode : Mode;
  complete : bool;
  scene : byte
}.

(** The plotted array: just the number of boxes drawn. *)
Abbreviation Arr := nat.

Definition labels : gmap Z string :=
  {[ 0 := "tumor"%string; 1 := "no_tumor"%string ]}.

(** "J": a JPEG, "P": a PNG with an alpha channel, "T": a JPEG cut short
    after its header; anything else, and the empty upload, is not an
    image. *)
Definition open (bytes : list byte) : option Img :=
  match bytes with
  | [tag; sc] =>
      if Byte.eqb tag "J"%byte then Some (mkImg RGB true sc)
      else if Byte.eqb tag "P"%byte then Some (mkImg RGBA true sc)
      else if Byte.eqb tag "T"%byte then Some (mkImg RGB false sc)
      else None
  | _ => None
  end.

Definition save_jpg (im : Img) : option (list byte) :=
  match mode im with
  | RGB => Some ["J"%byte; scene im]
  | RGBA => None
  end.

(** Scenes: "0" nothing found; "1" one box at confidence 0.3; "2" two
    boxes, the weaker first; "x" a box of a class without a label; "p" a
    result whose plot fails; "e" the model raises. *)
Definition run (m : unit) (data : list byte)
  : option (list (Results Arr)) :=
  match data with
  | [_; sc] =>
      if Byte.eqb sc "0"%byte then Some [mkResults [] (Some 0%nat)]
      else if Byte.eqb sc "1"%byte then
        Some [mkResults [mkBox 0 (Q2Qc (3 # 10))] (Some 1%nat)]
      else if Byte.eqb sc "2"%byte then
        Some [mkResults [mkBox 1 (Q2Qc (4 # 10)); mkBox 0 (Q2Qc (9 # 10))]
                        (Some 2%nat)]
      else if Byte.eqb sc "x"%byte then
        Some [mkResults [mkBox (Q2Qc (7 # 1)) (Q2Qc (8 # 10))] (Some 1%nat)]
      else if Byte.eqb sc "p"%byte then
        Some [mkResults [mkBox 0 (Q2Qc (8 # 10))] None]
      else None
  | _ => None
  end.

Definition lib : Libraries Img Arr unit :=
  mkLibraries Img Arr unit
    (fun p => if decide (p = "best.pt"%string) then Some tt else None)
    (fun _ => labels)
    run
    open
    complete
    save_jpg
    (fun n => mkImg RGB true "0"%byte).

(** A fresh process: nothing cached, nothing stored, no files. *)
Definition cold : World Img Arr unit := mkWorld None 0 None ∅ [].

(** The same process once the model is loaded. *)
Definition warm : World Img Arr unit := mkWorld (Some tt) 1 None ∅ [].

(** What an analysis of scene "x" leaves in the session state, and the
    world in which the right column then runs. *)
Definition session_x : Session Img Arr :=
  mkSession [mkResults [mkBox (Q2Qc (7 # 1)) (Q2Qc (8 # 10))] (Some 1%nat)]
            1%nat (mkImg RGB true "0"%byte) 0%nat.

Definition stored_x : World Img Arr unit :=
  mkWorld (Some tt) 1 (Some session_x)
          {[ 0%nat := ["J"%byte; "x"%byte] ]}
          [(0%nat, Some ["J"%byte; "x"%byte])].

End Double.

(** ** More worlds and outputs for the test double *)
Module Scenes.

(** The test double on a machine where best.pt cannot be read. *)
Definition lib_without_weights : Libraries Double.Img nat unit :=
  mkLibraries Double.Img nat unit
    (fun _ => None)
    (names Double.lib)
    (predict Double.lib)
    (Image_open Double.lib)
    (st_image Double.lib)
    (Image_save_jpg Double.lib)
    (Image_fromarray Double.lib).

(** A fresh process next to a file that belongs to somebody else. *)
Definition beside_a_file : World Double.Img nat unit :=
  mkWorld None 0 None {[ 5%nat := ["k"%byte] ]} [].

(** A model output of two results, as for a batch of two images: one box
    each. *)
Definition two_results : list (Results nat) :=
  [mkResults [mkBox 0 (Q2Qc (9 # 10))] (Some 1%nat);
   mkResults [mkBox 1 (Q2Qc (4 # 10))] (Some 1%nat)].

(** The world an analysis of the one-box scene leaves in a fresh process. *)
Definition analysed_1 : World Double.Img nat unit :=
  mkWorld (Some tt) 1
    (Some (mkSession [mkResults [mkBox 0 (Q2Qc (3 # 10))] (Some 1%nat)]
                     1%nat (Double.mkImg Double.RGB true "0"%byte) 0%nat))
    ∅ [(0%nat, Some ["J"%byte; "1"%byte])].

End Scenes.

(** * Properties *)

(** ** The listing and the summary *)

Lemma res_bind_Ok {A B} (r : res A) (k : A -> res B) (b : B) :
  res_bind r k = Ok b <-> exists a, r = Ok a /\ k a = Ok b.
Proof.
  destruct r as [a|e]; simpl; split.
  - intros H. exists a. auto.
  - intros (a' & Ha & H). congruence.
  - discriminate.
  - intros (a' & Ha & _). discriminate.
Qed.

Lemma write_box_Ok names box d :
  write_box names box = Ok d <-> shows names box d.
Proof.
  unfold write_box, names_getitem, shows.
  destruct (names !! py_int (cls box)) as [s|] eqn:E; simpl; split.
  - intros [= <-]. simpl. auto.
  - destruct d as [i n c]; simpl. intros (-> & -> & H).
    rewrite E in H. congruence.
  - discriminate.
  - intros (Hi & _ & H). rewrite Hi, E in H. discriminate.
Qed.

Lemma write_boxes_Ok names bs ds :
  write_boxes names bs = Ok ds <-> Forall2 (shows names) bs ds.
Proof.
  revert ds. induction bs as [|b bs IH]; intros ds; simpl.
  - split.
    + intros [= <-]. constructor.
    + intros H. inversion H. reflexivity.
  - rewrite res_bind_Ok. split.
    + intros (d & Hd & H). apply res_bind_Ok in H as (ds' & Hds & [= <-]).
      constructor; [by apply write_box_Ok | by apply IH].
    + intros H. inversion H as [|? d ? ds' Hd Hds]; subst.
      exists d. split; [by apply write_box_Ok|].
      apply IH in Hds. rewrite Hds. reflexivity.
Qed.

Lemma detected_classes_Ok {Array} names (results : list (Results Array)) ds :
  detected_classes names results = Ok ds <->
  Forall2 (shows names) (raw_detections results) ds.
Proof.
  revert ds. induction results as [|r rs IH]; intros ds; simpl.
  - split.
    + intros [= <-]. constructor.
    + intros H. inversion H. reflexivity.
  - rewrite res_bind_Ok. split.
    + intros (d1 & H1 & H). apply res_bind_Ok in H as (d2 & H2 & [= <-]).
      apply Forall2_app; [by apply write_boxes_Ok | by apply IH].
    + intros H. apply Forall2_app_inv_l in H as (d1 & d2 & H1 & H2 & ->).
      exists d1. split; [by apply write_boxes_Ok|].
      apply IH in H2. rewrite H2. reflexivity.
Qed.

(** When every class index has a label, the listing is produced. *)
Lemma shows_total names bs :
  labelled names bs -> exists ds, Forall2 (shows names) bs ds.
Proof.
  induction 1 as [|b bs [s Hs] _ [ds IH]].
  - exists []. constructor.
  - exists (mkDetection (py_int (cls b)) s (conf b) :: ds).
    constructor; [|done]. by repeat split.
Qed.

(** The only way the listing fails: a class index without a label. *)
Lemma write_boxes_Raise names bs e :
  write_boxes names bs = Raise e ->
  exists b, b ∈ bs /\ e = KeyError (py_int (cls b)) /\
            names !! py_int (cls b) = None.
Proof.
  induction bs as [|b bs IH]; simpl; [discriminate|].
  unfold write_box, names_getitem.
  destruct (names !! py_int (cls b)) as [s|] eqn:E; simpl.
  - destruct (write_boxes names bs) as [ds|e'] eqn:E'; simpl; [discriminate|].
    intros [= <-]. destruct (IH eq_refl) as (b' & Hin & He & Hn).
    exists b'. split; [by right | done].
  - intros [= <-]. exists b. split; [by left | done].
Qed.

Lemma detected_classes_Raise {Array} names (results : list (Results Array)) e :
  detected_classes names results = Raise e ->
  exists b, b ∈ raw_detections results /\ e = KeyError (py_int (cls b)) /\
            names !! py_int (cls b) = None.
Proof.
  induction results as [|r rs IH]; simpl; [discriminate|].
  destruct (write_boxes names (boxes r)) as [d1|e1] eqn:E1; simpl.
  - destruct (detected_classes names rs) as [d2|e2]; simpl; [discriminate|].
    intros [= <-]. destruct (IH eq_refl) as (b & Hin & He & Hn).
    exists b. split; [|done]. apply elem_of_app. by right.
  - intros [= <-]. apply write_boxes_Raise in E1 as (b & Hin & He & Hn).
    exists b. split; [|done]. apply elem_of_app. by left.
Qed.

(** The summary of lines 133-139, by cases on the boxes of [results[0]]. *)
Lemma detection_summary_empty {Array} names (r0 : Results Array) rest :
  boxes r0 = [] ->
  detection_summary names (r0 :: rest) = Ok (mkSummary 0 "N/A" 0%Qc).
Proof. unfold detection_summary. simpl. intros ->. reflexivity. Qed.

Lemma detection_summary_cons {Array} names (r0 : Results Array) rest b0 bs :
  boxes r0 = b0 :: bs ->
  detection_summary names (r0 :: rest) =
  (try name <- names_getitem names (py_int (cls b0));
   Ok (mkSummary (S (length bs)) name (conf b0)))%res.
Proof.
  unfold detection_summary. simpl. intros ->. simpl.
  destruct (decide (0 < S (length bs))%nat) as [_|Hn]; [|lia].
  simpl. destruct (names_getitem names (py_int (cls b0))); reflexivity.
Qed.

(** ** The listing against the spec's threshold filter *)

(** Where no detection lies below the threshold, the spec's filter keeps
    everything. *)
Lemma spec_filter_by_threshold_id t raw :
  Forall (fun b => (t <= conf b)%Qc) raw ->
  spec_filter_by_threshold t raw = raw.
Proof.
  unfold spec_filter_by_threshold. induction 1 as [|b bs Hb _ IH]; [done|].
  rewrite filter_cons_True; [by rewrite IH|].
  by apply Qcle_not_lt.
Qed.

(** C2, as the spec states it, fails.  The model's output is one box of
    class 0 with confidence 0.3; the threshold is 0.5.  The listing of
    lines 124-128 shows that detection, so it is not the spec's filtered
    sequence, which is empty. *)
Lemma listing_applies_no_threshold_cx :
  exists ds,
    detected_classes {[ 0 := "tumor"%string ]}
      [mkResults [mkBox 0 (Q2Qc (3 # 10))] (Some tt)] = Ok ds /\
    ds = [mkDetection 0 "tumor" (Q2Qc (3 # 10))] /\
    ~ Forall2 (shows {[ 0 := "tumor"%string ]})
        (spec_filter_by_threshold (Q2Qc (1 # 2))
           (raw_detections [mkResults [mkBox 0 (Q2Qc (3 # 10))] (Some tt)]))
        ds.
Proof.
  eexists. split; [vm_compute; reflexivity|]. split; [reflexivity|].
  intros H.
  assert (E : spec_filter_by_threshold (Q2Qc (1 # 2))
                (raw_detections [mkResults [mkBox 0 (Q2Qc (3 # 10))] (Some tt)])
              = []) by (vm_compute; reflexivity).
  rewrite E in H. inversion H.
Qed.

(** C2, amended.  The listing discards nothing: when every class index of
    the model's output has a label, it shows one detection per box of the
    output, whatever its confidence, position by position in the order the
    model emitted them. *)
Theorem listing_keeps_every_detection {Array} names
    (results : list (Results Array)) :
  labelled names (raw_detections results) ->
  exists ds,
    detected_classes names results = Ok ds /\
    Forall2 (shows names) (raw_detections results) ds /\
    confidence <$> ds = conf <$> raw_detections results.
Proof.
  intros Hlab. destruct (shows_total _ _ Hlab) as [ds Hds].
  exists ds. split; [by apply detected_classes_Ok|]. split; [done|].
  clear Hlab. induction Hds as [|b d bs ds (_ & Hc & _) _ IH]; [done|].
  rewrite !fmap_cons. by rewrite Hc, IH.
Qed.

(** C3.  For the threshold filter of the spec, raising the threshold never
    raises the count: for [t1 <= t2], the count at [t2] is at most the
    count at [t1].  (The count app.py shows depends on no threshold.) *)
Theorem spec_total_count_antitone (t1 t2 : Qc) (raw : list Box) :
  (t1 <= t2)%Qc ->
  (spec_total_count t2 raw <= spec_total_count t1 raw)%nat.
Proof.
  intros Ht. unfold spec_total_count, spec_filter_by_threshold.
  induction raw as [|b bs IH]; [done|].
  rewrite !filter_cons.
  destruct (decide (~ (conf b < t2)%Qc)) as [H2|H2];
    destruct (decide (~ (conf b < t1)%Qc)) as [H1|H1]; simpl; try lia.
  exfalso. apply H2. apply dec_stable in H1.
  by eapply Qclt_le_trans.
Qed.

(** The spec's count never exceeds the number of boxes, which is what
    app.py shows as "Total Detections". *)
Lemma spec_total_count_le_shown {Array} names (r0 : Results Array) rest t sm :
  detection_summary names (r0 :: rest) = Ok sm ->
  (spec_total_count t (boxes r0) <= total_detections sm)%nat.
Proof.
  intros H. assert (total_detections sm = length (boxes r0)) as ->.
  { unfold detection_summary in H. simpl in H.
    apply res_bind_Ok in H as (c & _ & H).
    apply res_bind_Ok in H as (q & _ & [= <-]). reflexivity. }
  unfold spec_total_count, spec_filter_by_threshold. apply length_filter.
Qed.

(** ** Runs of the script *)

Section Runs.
Context {Image Array Model : Type}.
Variable lib : Libraries Image Array Model.

Abbreviation Wld := (World Image Array Model).

Lemma tmp_fresh (w : Wld) : files w !! tmp w = None.
Proof. apply (not_elem_of_dom (D := gset nat)). unfold tmp. apply is_fresh. Qed.

(** The model is loaded at most once, and a loaded model is returned as
    it is. *)
Lemma load_model_cached (w : Wld) m :
  cache w = Some m -> load_model lib w = (Ok m, w).
Proof. unfold load_model. intros ->. reflexivity. Qed.

Lemma load_model_Ok (w w1 : Wld) m :
  load_model lib w = (Ok m, w1) ->
  cache w1 = Some m /\ session_state w1 = session_state w /\
  files w1 = files w /\ inferences w1 = inferences w /\
  (is_Some (cache w) -> w1 = w) /\
  (cache w = None -> loads w1 = S (loads w)).
Proof.
  unfold load_model. destruct (cache w) as [m'|] eqn:Ec.
  - intros [= <- <-]. repeat split; done.
  - destruct (YOLO lib "best.pt") as [m'|]; [|discriminate].
    intros [= <- <-]. simpl. repeat split; done.
Qed.

Lemma load_model_again (w w1 : Wld) m :
  load_model lib w = (Ok m, w1) -> load_model lib w1 = (Ok m, w1).
Proof.
  intros H. apply load_model_Ok in H as (Hc & _). by apply load_model_cached.
Qed.

(** Lines 92-106, once the JPEG encoding of the image exists. *)
Lemma analyze_image_saved (w : Wld) m image data :
  Image_save_jpg lib image = Some data ->
  analyze_image lib m image w =
  match predict lib m data with
  | None => (Raise InferenceFailure, after_inference w data)
  | Some [] => (Raise IndexError, after_inference w data)
  | Some (r0 :: rest) =>
      match plot r0 with
      | None => (Raise PlotFailure, after_inference w data)
      | Some arr => (Ok tt, after_analysis lib w data (r0 :: rest) arr)
      end
  end.
Proof.
  intros Hs. unfold analyze_image, bind, NamedTemporaryFile, Image_save.
  rewrite Hs. unfold call_model. cbn [files cache loads session_state inferences].
  fold (tmp w). rewrite lookup_insert_eq, insert_insert_eq.
  unfold after_inference, after_analysis.
  destruct (predict lib m data) as [[|r0 rest]|]; try reflexivity.
  unfold plot_first, bind, lift, of_option. simpl.
  destruct (plot r0); reflexivity.
Qed.

(** Lines 92-93, when the image cannot be written as JPEG: the run ends
    there, with the empty temporary file in place. *)
Lemma analyze_image_unsaved (w : Wld) m image :
  Image_save_jpg lib image = None ->
  analyze_image lib m image w =
  (Raise CannotWriteMode,
   mkWorld (cache w) (loads w) (session_state w)
           (<[tmp w := []]> (files w)) (inferences w)).
Proof.
  intros Hs. unfold analyze_image, bind, NamedTemporaryFile, Image_save.
  rewrite Hs. reflexivity.
Qed.

(** Lines 108-156 right after an analysis. *)
Lemma col2_after_analysis (w : Wld) m data results arr ds sm :
  detected_classes (names lib m) results = Ok ds ->
  detection_summary (names lib m) results = Ok sm ->
  col2 lib m (after_analysis lib w data results arr) =
  (Ok (Some (mkTab1 ds sm)),
   mkWorld (cache w) (loads w)
           (Some (mkSession results arr (Image_fromarray lib arr) (tmp w)))
           (files w) ((tmp w, Some data) :: inferences w)).
Proof.
  intros Hd Hs. unfold col2, after_analysis. simpl.
  unfold bind, lift. rewrite Hd, Hs. unfold os_remove. simpl.
  rewrite lookup_insert_eq. unfold ret.
  rewrite delete_insert_id by apply tmp_fresh. reflexivity.
Qed.

(** A whole run: a valid upload, "Analyze" pressed, every step going
    through. *)
Lemma script_analysis_ok (w w1 : Wld) m bytes image data results arr ds sm :
  load_model lib w = (Ok m, w1) ->
  Image_open lib bytes = Some image ->
  st_image lib image = true ->
  Image_save_jpg lib image = Some data ->
  predict lib m data = Some results ->
  (exists r0, results !! 0%nat = Some r0 /\ plot r0 = Some arr) ->
  detected_classes (names lib m) results = Ok ds ->
  detection_summary (names lib m) results = Ok sm ->
  script lib (Some bytes) true w =
  (Ok (Some (mkTab1 ds sm)),
   mkWorld (cache w1) (loads w1)
           (Some (mkSession results arr (Image_fromarray lib arr) (tmp w1)))
           (files w1) ((tmp w1, Some data) :: inferences w1)).
Proof.
  intros Hl Ho Hi Hs Hp (r0 & Hr0 & Hplot) Hd Hsm.
  unfold script, bind at 1. rewrite Hl.
  unfold bind at 1. unfold col1, bind at 1, of_option. rewrite Ho.
  unfold ret at 1. unfold bind at 1. rewrite Hi. unfold ret at 1.
  rewrite (analyze_image_saved _ _ _ _ Hs), Hp.
  destruct results as [|r rest]; [discriminate|].
  simpl in Hr0. injection Hr0 as ->. rewrite Hplot.
  by apply col2_after_analysis.
Qed.

(** C1.  A valid upload is analysed and the model returns, for that one
    image, a result with at least one box, every class of which has a
    label.  Then the run renders tab 1, the "Total Detections" metric is
    the number of detections listed, and "Top Class" / "Top Confidence"
    are those of the first detection listed, i.e. of the first box the
    model emitted. *)
Theorem summary_matches_detections
    (w w1 : Wld) m bytes image data (r0 : Results Array) arr :
  load_model lib w = (Ok m, w1) ->
  Image_open lib bytes = Some image ->
  st_image lib image = true ->
  Image_save_jpg lib image = Some data ->
  predict lib m data = Some [r0] ->
  plot r0 = Some arr ->
  boxes r0 <> [] ->
  labelled (names lib m) (boxes r0) ->
  exists tab w2,
    script lib (Some bytes) true w = (Ok (Some tab), w2) /\
    total_detections (summary tab) = length (shown tab) /\
    exists b0 d0,
      boxes r0 !! 0%nat = Some b0 /\ shown tab !! 0%nat = Some d0 /\
      shows (names lib m) b0 d0 /\
      top_class (summary tab) = class_name d0 /\
      top_conf (summary tab) = confidence d0.
Proof.
  intros Hl Ho Hi Hs Hp Hplot Hne Hlab.
  destruct (shows_total _ _ Hlab) as [ds Hds].
  assert (Hdc : detected_classes (names lib m) [r0] = Ok ds).
  { apply detected_classes_Ok. unfold raw_detections. simpl.
    by rewrite app_nil_r. }
  destruct (boxes r0) as [|b0 bs] eqn:Eb; [done|].
  inversion Hds as [|? d0 ? ds' Hd0 Hds']; subst.
  assert (Hsm : detection_summary (names lib m) [r0] =
                Ok (mkSummary (S (length bs)) (class_name d0) (conf b0))).
  { rewrite (detection_summary_cons _ _ _ _ _ Eb).
    unfold names_getitem. destruct Hd0 as (Hi0 & _ & Hn0).
    rewrite <- Hi0, Hn0. reflexivity. }
  eexists _, _. split.
  - eapply script_analysis_ok; eauto.
  - simpl. split.
    + f_equal. by eapply Forall2_length.
    + exists b0, d0. destruct Hd0 as (Hi0 & Hc0 & Hn0).
      unfold shows. by rewrite Hc0.
Qed.

(** C4.  A valid upload is analysed and the model returns, for that one
    image, a result without boxes.  Then the run does not raise: tab 1 is
    rendered with an empty listing, "Total Detections" 0, and the
    placeholders "N/A" and 0 where a top detection would be; the
    temporary file is gone again. *)
Theorem no_detection_is_success
    (w w1 : Wld) m bytes image data (r0 : Results Array) arr :
  load_model lib w = (Ok m, w1) ->
  Image_open lib bytes = Some image ->
  st_image lib image = true ->
  Image_save_jpg lib image = Some data ->
  predict lib m data = Some [r0] ->
  plot r0 = Some arr ->
  boxes r0 = [] ->
  exists w2,
    script lib (Some bytes) true w =
      (Ok (Some (mkTab1 [] (mkSummary 0 "N/A" 0%Qc))), w2) /\
    files w2 = files w.
Proof.
  intros Hl Ho Hi Hs Hp Hplot Hb.
  eexists. split.
  - eapply script_analysis_ok; eauto.
    + simpl. rewrite Hb. reflexivity.
    + by apply detection_summary_empty.
  - simpl. by apply load_model_Ok in Hl as (_ & _ & -> & _).
Qed.

(** The right column calls the model on nothing. *)
Lemma col2_inferences (w : Wld) m :
  inferences (col2 lib m w).2 = inferences w.
Proof.
  unfold col2. destruct (session_state w) as [s|]; [|reflexivity].
  unfold bind, lift.
  destruct (detected_classes _ _); [|reflexivity].
  destruct (detection_summary _ _); [|reflexivity].
  unfold os_remove. destruct (files w !! _); reflexivity.
Qed.

(** A run up to the point where the upload is decoded and "Analyze" is
    pressed. *)
Lemma script_decoded (w w1 : Wld) m bytes image :
  load_model lib w = (Ok m, w1) ->
  Image_open lib bytes = Some image ->
  st_image lib image = true ->
  script lib (Some bytes) true w =
  bind (analyze_image lib m image) (fun _ => col2 lib m) w1.
Proof.
  intros Hl Ho Hi. unfold script, bind at 1. rewrite Hl.
  unfold col1, of_option. rewrite Ho. unfold bind, ret. rewrite Hi.
  reflexivity.
Qed.

(** C5.  With the model available, an upload that cannot be decoded (the
    decoder does not identify it, or identifies it and cannot read its
    pixel data) ends the run with a decode exception, whether "Analyze"
    is pressed or not.  The world after the run is the world right after
    [load_model]: the model is cached as [load_model] left it, and with a
    model already cached nothing has changed at all. *)
Theorem undecodable_upload_fails (w w1 : Wld) m bytes button :
  load_model lib w = (Ok m, w1) ->
  undecodable lib bytes ->
  exists e,
    DecodeError e /\
    script lib (Some bytes) button w = (Raise e, w1) /\
    cache w1 = Some m /\
    (is_Some (cache w) -> w1 = w).
Proof.
  intros Hl Hu. pose proof (load_model_Ok _ _ _ Hl) as (Hc & _ & _ & _ & Hw & _).
  unfold undecodable in Hu. unfold script, bind at 1. rewrite Hl.
  unfold col1, of_option.
  destruct (Image_open lib bytes) as [image|].
  - exists ImageLoadFailure. split; [by right|].
    unfold bind, ret, raise. rewrite Hu. done.
  - exists UnidentifiedImageError. split; [by left|].
    unfold bind, raise. done.
Qed.

(** C6.  When tab 1 is rendered from stored results, every detection it
    shows carries the label [model.names] has for its class index; and
    when some box of the stored results has a class index without a
    label, rendering raises [KeyError] for such an index and shows no
    tab. *)
Theorem labels_resolved_or_KeyError (w : Wld) m s :
  session_state w = Some s ->
  (forall tab w', col2 lib m w = (Ok (Some tab), w') ->
     Forall (fun d => names lib m !! class_id d = Some (class_name d))
            (shown tab)) /\
  (~ labelled (names lib m) (raw_detections (s_results s)) ->
     exists k, col2 lib m w = (Raise (KeyError k), w) /\
               names lib m !! k = None).
Proof.
  intros Hs. unfold col2. rewrite Hs. unfold bind, lift.
  destruct (detected_classes (names lib m) (s_results s)) as [ds|e] eqn:Hd.
  - apply detected_classes_Ok in Hd. split.
    + intros tab w' H.
      assert (shown tab = ds) as ->.
      { destruct (detection_summary _ _); [|discriminate].
        unfold os_remove, ret in H. destruct (files w !! _); [|discriminate].
        by injection H as <- _. }
      clear H. induction Hd as [|b d bs ds' (_ & _ & Hn) _ IH]; by constructor.
    + intros Hn. exfalso. apply Hn. clear Hn.
      induction Hd as [|b d bs ds' (Hi & _ & Hn) _ IH]; constructor; [|done].
      rewrite <- Hi, Hn. done.
  - split; [discriminate|]. intros _.
    apply detected_classes_Raise in Hd as (b & _ & -> & Hn). eauto.
Qed.

(** C8, amended.  When [results[0].plot()] raises, the run ends with that
    exception right there: nothing is stored in the session state, the
    right column is not reached, and the temporary file stays. *)
Theorem render_failure_aborts
    (w w1 : Wld) m bytes image data results (r0 : Results Array) :
  load_model lib w = (Ok m, w1) ->
  Image_open lib bytes = Some image ->
  st_image lib image = true ->
  Image_save_jpg lib image = Some data ->
  predict lib m data = Some results ->
  results !! 0%nat = Some r0 ->
  plot r0 = None ->
  script lib (Some bytes) true w =
    (Raise PlotFailure, after_inference w1 data) /\
  session_state (after_inference w1 data) = session_state w.
Proof.
  intros Hl Ho Hi Hs Hp Hr Hplot. split.
  - rewrite (script_decoded _ _ _ _ _ Hl Ho Hi). unfold bind.
    rewrite (analyze_image_saved _ _ _ _ Hs), Hp.
    destruct results as [|r rest]; [discriminate|].
    simpl in Hr. injection Hr as ->. by rewrite Hplot.
  - simpl. by apply load_model_Ok in Hl as (_ & -> & _).
Qed.

(** C10.  With the model available and the upload decoded, "Analyze"
    writes the JPEG encoding of the decoded image, as it is, to the
    temporary file and calls the model on that file.  When the image
    cannot be written as JPEG, the run ends with the exception of
    [image.save]: the model has not been called, nothing is stored in the
    session state and the empty temporary file stays. *)
Theorem jpeg_file_before_model (w w1 : Wld) m bytes image :
  load_model lib w = (Ok m, w1) ->
  Image_open lib bytes = Some image ->
  st_image lib image = true ->
  match Image_save_jpg lib image with
  | Some data =>
      inferences (script lib (Some bytes) true w).2 =
      (tmp w1, Some data) :: inferences w1
  | None =>
      script lib (Some bytes) true w =
      (Raise CannotWriteMode,
       mkWorld (cache w1) (loads w1) (session_state w1)
               (<[tmp w1 := []]> (files w1)) (inferences w1))
  end.
Proof.
  intros Hl Ho Hi. rewrite (script_decoded _ _ _ _ _ Hl Ho Hi). unfold bind.
  destruct (Image_save_jpg lib image) as [data|] eqn:Hs.
  - rewrite (analyze_image_saved _ _ _ _ Hs).
    destruct (predict lib m data) as [[|r0 rest]|]; try reflexivity.
    destruct (plot r0); [|reflexivity].
    by rewrite col2_inferences.
  - by rewrite (analyze_image_unsaved _ _ _ Hs).
Qed.

End Runs.

(** ** Runs on the test double *)

(** A JPEG cut short after its header is identified by [Image.open] and
    fails when it is displayed. *)
Example truncated_upload_run :
  script Double.lib (Some ["T"%byte; "1"%byte]) true Double.cold =
  (Raise ImageLoadFailure, Double.warm).
Proof. reflexivity. Qed.

(** After a successful analysis the session state still names the temporary
    file that line 156 removed: the next run of the script, whatever
    triggers it, renders tab 1 again and ends in [os.remove]. *)
Example rerun_after_analysis :
  exists tab w1,
    script Double.lib (Some ["J"%byte; "1"%byte]) true Double.cold =
      (Ok (Some tab), w1) /\
    script Double.lib (Some ["J"%byte; "1"%byte]) false w1 =
      (Raise (FileNotFoundError (tmp Double.cold)), w1).
Proof. eexists _, _. split; vm_compute; reflexivity. Qed.

(** C1, on the test double: a JPEG whose scene gives two boxes. *)
Lemma summary_matches_detections_witness :
  exists tab w2,
    script Double.lib (Some ["J"%byte; "2"%byte]) true Double.cold =
      (Ok (Some tab), w2) /\
    total_detections (summary tab) = length (shown tab) /\
    exists b0 d0,
      [mkBox 1 (Q2Qc (4 # 10)); mkBox 0 (Q2Qc (9 # 10))] !! 0%nat = Some b0 /\
      shown tab !! 0%nat = Some d0 /\
      shows Double.labels b0 d0 /\
      top_class (summary tab) = class_name d0 /\
      top_conf (summary tab) = confidence d0.
Proof.
  apply (summary_matches_detections Double.lib Double.cold
           Double.warm tt
           ["J"%byte; "2"%byte] (Double.mkImg Double.RGB true "2"%byte)
           ["J"%byte; "2"%byte]
           (mkResults [mkBox 1 (Q2Qc (4 # 10)); mkBox 0 (Q2Qc (9 # 10))]
                      (Some 2%nat))
           2%nat).
  - reflexivity.
  - reflexivity.
  - reflexivity.
  - reflexivity.
  - reflexivity.
  - reflexivity.
  - discriminate.
  - repeat constructor; eexists; vm_compute; reflexivity.
Defined.

(** C4, on the test double: a JPEG whose scene gives no box. *)
Lemma no_detection_is_success_witness :
  exists w2,
    script Double.lib (Some ["J"%byte; "0"%byte]) true Double.cold =
      (Ok (Some (mkTab1 [] (mkSummary 0 "N/A" 0%Qc))), w2) /\
    files w2 = files Double.cold.
Proof.
  apply (no_detection_is_success Double.lib Double.cold
           Double.warm tt
           ["J"%byte; "0"%byte] (Double.mkImg Double.RGB true "0"%byte)
           ["J"%byte; "0"%byte] (mkResults [] (Some 0%nat)) 0%nat);
    reflexivity.
Defined.

(** C5, on the test double: the empty upload. *)
Lemma undecodable_upload_fails_witness :
  exists e,
    DecodeError e /\
    script Double.lib (Some []) true Double.cold =
      (Raise e, Double.warm) /\
    Some tt = Some tt /\
    (is_Some (@None unit) -> Double.warm = Double.cold).
Proof.
  apply (undecodable_upload_fails Double.lib Double.cold
           Double.warm tt [] true).
  - reflexivity.
  - exact I.
Defined.

(** C2 amended, on the output of the two-box scene. *)
Lemma listing_keeps_every_detection_witness :
  exists ds,
    detected_classes Double.labels
      [mkResults [mkBox 1 (Q2Qc (4 # 10)); mkBox 0 (Q2Qc (9 # 10))]
                 (Some 2%nat)] = Ok ds /\
    Forall2 (shows Double.labels)
      (raw_detections
         [mkResults [mkBox 1 (Q2Qc (4 # 10)); mkBox 0 (Q2Qc (9 # 10))]
                    (Some 2%nat)]) ds /\
    confidence <$> ds =
    conf <$> raw_detections
      [mkResults [mkBox 1 (Q2Qc (4 # 10)); mkBox 0 (Q2Qc (9 # 10))]
                 (Some 2%nat)].
Proof.
  apply (listing_keeps_every_detection Double.labels).
  repeat constructor; eexists; vm_compute; reflexivity.
Defined.

(** C3, at thresholds 0.25 and 0.5 on the output of the two-box scene. *)
Lemma spec_total_count_antitone_witness :
  (spec_total_count (Q2Qc (1 # 2))
     [mkBox 1 (Q2Qc (4 # 10)); mkBox 0 (Q2Qc (9 # 10))] <=
   spec_total_count (Q2Qc (1 # 4))
     [mkBox 1 (Q2Qc (4 # 10)); mkBox 0 (Q2Qc (9 # 10))])%nat.
Proof.
  apply (spec_total_count_antitone (Q2Qc (1 # 4)) (Q2Qc (1 # 2))).
  vm_compute. discriminate.
Defined.

(** C6, on the test double: stored results with a box of class 7, for
    which the model has no label. *)
Lemma labels_resolved_or_KeyError_witness :
  exists k,
    col2 Double.lib tt Double.stored_x =
      (Raise (KeyError k), Double.stored_x) /\
    Double.labels !! k = None.
Proof.
  refine (proj2 (labels_resolved_or_KeyError Double.lib Double.stored_x tt
                   Double.session_x eq_refl) _).
  intros H. apply Forall_inv in H. destruct H as [s H].
  vm_compute in H. discriminate.
Defined.

(** C8, as the spec states it, fails.  On the test double, the upload whose
    scene makes [plot()] raise: the model did return a box, and the run
    ends with the plot's exception, with nothing in the session state. *)
Lemma render_failure_loses_results_cx :
  Double.run tt ["J"%byte; "p"%byte] =
    Some [mkResults [mkBox 0 (Q2Qc (8 # 10))] None] /\
  exists w',
    script Double.lib (Some ["J"%byte; "p"%byte]) true Double.cold =
      (Raise PlotFailure, w') /\
    session_state w' = None /\
    ~ exists tab w'',
        script Double.lib (Some ["J"%byte; "p"%byte]) true Double.cold =
          (Ok (Some tab), w'').
Proof.
  split; [reflexivity|].
  eexists. split; [vm_compute; reflexivity|]. split; [reflexivity|].
  intros (tab & w'' & H). vm_compute in H. discriminate.
Qed.

(** C8 amended, on the test double. *)
Lemma render_failure_aborts_witness :
  script Double.lib (Some ["J"%byte; "p"%byte]) true Double.cold =
    (Raise PlotFailure,
     after_inference Double.warm ["J"%byte; "p"%byte]) /\
  session_state
    (after_inference Double.warm ["J"%byte; "p"%byte]) =
  session_state Double.cold.
Proof.
  apply (render_failure_aborts Double.lib Double.cold
           Double.warm tt
           ["J"%byte; "p"%byte] (Double.mkImg Double.RGB true "p"%byte)
           ["J"%byte; "p"%byte]
           [mkResults [mkBox 0 (Q2Qc (8 # 10))] None]
           (mkResults [mkBox 0 (Q2Qc (8 # 10))] None));
    reflexivity.
Defined.

(** C9.  On the test double, a PNG with an alpha channel is uploaded into a
    fresh process and "Analyze" is pressed: the run ends with the exception
    of [image.save], and the temporary file it created, which did not exist
    before, is still there afterwards. *)
Theorem temp_file_left_behind :
  exists w',
    script Double.lib (Some ["P"%byte; "1"%byte]) true Double.cold =
      (Raise CannotWriteMode, w') /\
    files Double.cold !! tmp Double.cold = None /\
    files w' !! tmp Double.cold = Some [].
Proof.
  eexists. split; [vm_compute; reflexivity|].
  split; vm_compute; reflexivity.
Qed.

(** C10, on the test double: a PNG with an alpha channel. *)
Lemma jpeg_file_before_model_witness :
  script Double.lib (Some ["P"%byte; "1"%byte]) true Double.cold =
    (Raise CannotWriteMode,
     mkWorld (Some tt) 1 None
             (<[tmp Double.warm := []]> ∅) []).
Proof.
  exact (jpeg_file_before_model Double.lib Double.cold
           Double.warm tt
           ["P"%byte; "1"%byte] (Double.mkImg Double.RGBA true "1"%byte)
           eq_refl eq_refl eq_refl).
Defined.

(** * Further properties of the script *)

(** ** Conversions and the listing *)

(** [int] of a float with an integer value is that integer: a class index
    the model emits as a float is looked up under the same index. *)
Lemma py_int_integer (n : Z) : py_int (Q2Qc (inject_Z n)) = n.
Proof.
  unfold py_int. simpl.
  rewrite (proj2 (Qred_iff (inject_Z n))) by (simpl; apply Z.gcd_1_r).
  simpl. apply Z.quot_1_r.
Qed.

(** On a float that is not negative, [int] is the floor: everything in
    [n, n+1) is looked up under index [n]. *)
Lemma py_int_floor (q : Qc) (n : Z) :
  (inject_Z n <= q)%Q -> (q < inject_Z (n + 1))%Q -> (0 <= n)%Z ->
  py_int q = n.
Proof.
  intros Hlo Hhi Hn. unfold py_int.
  assert (H0 : (0 <= Qnum q)%Z).
  { assert (Hq : (0 <= q)%Q).
    { eapply Qle_trans; [|exact Hlo]. unfold Qle. simpl. lia. }
    unfold Qle in Hq. simpl in Hq. lia. }
  rewrite Z.quot_div_nonneg by lia.
  assert (Qfloor q = Qnum q / QDen q) as <- by (by destruct (this q)).
  apply Z.le_antisymm.
  - apply Z.lt_succ_r. rewrite Zlt_Qlt.
    eapply Qle_lt_trans; [apply Qfloor_le|]. exact Hhi.
  - rewrite <- (Qfloor_Z n). by apply Qfloor_resp_le.
Qed.





(** The summary reads [results[0]] only, the listing reads every result:
    the total shown is the number of boxes of the first result, at most
    the number of detections listed, and equal to it exactly when the
    other results have no boxes. *)
Theorem summary_counts_first_result_only {Array} names
    (results : list (Results Array)) ds sm :
  detected_classes names results = Ok ds ->
  detection_summary names results = Ok sm ->
  (total_detections sm <= length ds)%nat /\
  (total_detections sm = length ds <-> raw_detections (tail results) = []).
Proof.
  intros Hd Hs. apply detected_classes_Ok, Forall2_length in Hd.
  destruct results as [|r0 rest]; [discriminate|].
  assert (total_detections sm = length (boxes r0)) as ->.
  { unfold detection_summary in Hs. simpl in Hs.
    apply res_bind_Ok in Hs as (c & _ & Hs).
    apply res_bind_Ok in Hs as (q & _ & [= <-]). reflexivity. }
  unfold raw_detections in *. simpl in *. rewrite length_app in Hd.
  rewrite <- Hd. split; [lia|]. split.
  - intros H. apply nil_length_inv. lia.
  - intros ->. simpl. lia.
Qed.

(** Once the listing has gone through, the summary does not raise, as long
    as there is a [results[0]]. *)
Lemma summary_after_listing {Array} names (results : list (Results Array))
    ds r0 :
  detected_classes names results = Ok ds ->
  results !! 0%nat = Some r0 ->
  exists sm, detection_summary names results = Ok sm.
Proof.
  intros Hd Hr. destruct results as [|r rest]; simplify_eq/=.
  destruct (boxes r0) as [|b0 bs] eqn:Eb.
  - eexists. by apply detection_summary_empty.
  - rewrite (detection_summary_cons _ _ _ _ _ Eb).
    apply res_bind_Ok in Hd as (d1 & H1 & _). rewrite ?Eb in H1. simpl in H1.
    apply res_bind_Ok in H1 as (d & Hd0 & _).
    unfold write_box in Hd0. apply res_bind_Ok in Hd0 as (nm & Hn & _).
    rewrite Hn. simpl. eauto.
Qed.

(** ** Properties of every run *)

Section EveryRun.
Context {Image Array Model : Type}.
Variable lib : Libraries Image Array Model.

Abbreviation Wd := (World Image Array Model).

(** Unfolds a run into its steps, up to the listing and the summary. *)
Ltac run_steps :=
  unfold script, col1, col2, analyze_image, plot_first, NamedTemporaryFile,
    Image_save, call_model, store_session, os_remove, load_model,
    of_option, bind, ret, raise, lift, item0 in *;
  cbn [cache loads session_state files inferences fst snd
       s_results s_result_img s_result_pil s_temp_file_path] in *.

(** Splits a run on everything its control flow depends on. *)
Ltac run_cases :=
  run_steps;
  repeat (first [ rewrite lookup_insert_eq in *
                | case_match ];
          cbn [cache loads session_state files inferences fst snd
               s_results s_result_img s_result_pil s_temp_file_path] in *;
          simplify_eq).

(** A run calls the model at most once, and then on the temporary file
    holding the JPEG encoding of the image just uploaded; without
    "Analyze", or without an upload, it does not call the model. *)
Theorem model_called_at_most_once (w : Wd) uploaded_file button :
  inferences (script lib uploaded_file button w).2 = inferences w \/
  exists bytes image data,
    uploaded_file = Some bytes /\ button = true /\
    Image_open lib bytes = Some image /\
    Image_save_jpg lib image = Some data /\
    inferences (script lib uploaded_file button w).2 =
      (tmp w, Some data) :: inferences w.
Proof.
  unfold tmp. run_cases; first [ by left | right; eauto 10 ].
Qed.

(** A cached model is never replaced and never loaded again. *)
Lemma script_keeps_model (w : Wd) m uploaded_file button :
  cache w = Some m ->
  cache (script lib uploaded_file button w).2 = Some m /\
  loads (script lib uploaded_file button w).2 = loads w.
Proof. intros Hc. run_cases; done. Qed.

Lemma script_load_inv (w : Wd) uploaded_file button :
  load_inv w -> load_inv (script lib uploaded_file button w).2.
Proof. unfold load_inv. intros Hi. run_cases; simpl in *; congruence. Qed.

(** However many runs follow, and whatever they are given, the model a run
    found in the cache is the model every later run uses, and the weights
    are not read again. *)
Theorem reruns_keep_model (w : Wd) m inputs :
  cache w = Some m ->
  cache (reruns lib inputs w) = Some m /\
  loads (reruns lib inputs w) = loads w.
Proof.
  revert w. induction inputs as [|[up b] inputs IH]; intros w Hc; [done|].
  simpl. destruct (script_keeps_model w m up b Hc) as [Hc' Hl'].
  destruct (IH _ Hc') as [IHc IHl]. split; [done | congruence].
Qed.

(** In a process that starts without a model, the body of [load_model]
    completes at most once over any sequence of runs. *)
Theorem weights_read_at_most_once (w : Wd) inputs :
  cache w = None -> loads w = 0%nat ->
  (loads (reruns lib inputs w) <= 1)%nat /\
  (is_Some (cache (reruns lib inputs w)) ->
   loads (reruns lib inputs w) = 1%nat).
Proof.
  intros Hc Hl.
  assert (Hinv : load_inv (reruns lib inputs w)).
  { assert (H0 : load_inv w) by (unfold load_inv; by rewrite Hc).
    clear Hc Hl. revert w H0.
    induction inputs as [|[up b] inputs IH]; intros w H0; [done|].
    simpl. apply IH. by apply script_load_inv. }
  unfold load_inv in Hinv.
  destruct (cache (reruns lib inputs w)); split; try lia; try done.
Qed.

(** While the weights cannot be read, every run ends in [load_model], before
    the upload is looked at, and changes nothing. *)
Theorem missing_weights_block_every_run (w : Wd) inputs uploaded_file button :
  cache w = None ->
  YOLO lib "best.pt" = None ->
  reruns lib inputs w = w /\
  script lib uploaded_file button (reruns lib inputs w) =
    (Raise ModelLoadFailure, w).
Proof.
  intros Hc Hy.
  assert (Hrun : forall up b, script lib up b w = (Raise ModelLoadFailure, w)).
  { intros up b. unfold script, bind, load_model. by rewrite Hc, Hy. }
  assert (Hre : reruns lib inputs w = w).
  { induction inputs as [|[up b] inputs IH]; [done|].
    simpl. by rewrite Hrun. }
  by rewrite Hre, Hrun.
Qed.

(** A run in which "Analyze" is not pressed, or nothing is uploaded, stores
    nothing, calls the model on nothing and creates or changes no file. *)
Theorem idle_run_creates_nothing (w : Wd) uploaded_file button :
  button = false \/ uploaded_file = None ->
  session_state (script lib uploaded_file button w).2 = session_state w /\
  inferences (script lib uploaded_file button w).2 = inferences w /\
  forall p c, files (script lib uploaded_file button w).2 !! p = Some c ->
              files w !! p = Some c.
Proof.
  intros [-> | ->]; run_cases; repeat split; try done;
    intros p c; simpl; first [ done | rewrite lookup_delete; case_decide; done ].
Qed.

(** No run touches a file that exists already, other than the one the
    session state names as its temporary file. *)
Theorem other_files_untouched (w : Wd) uploaded_file button p c :
  files w !! p = Some c ->
  (forall s, session_state w = Some s -> s_temp_file_path s <> p) ->
  files (script lib uploaded_file button w).2 !! p = Some c.
Proof.
  intros Hp Hs. pose proof (tmp_fresh w) as Hf. unfold tmp in Hf.
  assert (Hne : fresh (dom (files w)) <> p) by congruence.
  run_cases; simpl; try done;
    rewrite ?lookup_delete_ne, ?lookup_insert_ne; try done; eauto.
Qed.

(** Every run keeps stored sessions well formed. *)
Lemma script_session_wf (w : Wd) uploaded_file button :
  session_wf lib w -> session_wf lib (script lib uploaded_file button w).2.
Proof.
  unfold session_wf. intros Hwf.
  run_cases; simpl; intros s' Hs';
    first [ by apply Hwf
          | simplify_eq; simpl; eauto
          | apply Hwf; congruence ].
Qed.

(** Starting from a world whose session, if any, is well formed (a fresh
    process has none), any sequence of runs leaves a session that is well
    formed: [results[0]] exists, [result_img] is its plot and [result_pil]
    the image made from it. *)
Theorem reruns_session_wf (w : Wd) inputs :
  session_wf lib w -> session_wf lib (reruns lib inputs w).
Proof.
  revert w. induction inputs as [|[up b] inputs IH]; intros w Hwf; [done|].
  simpl. apply IH. by apply script_session_wf.
Qed.

(** The right column, on a well-formed session, raises in two ways only:
    [KeyError] at a class index without a label, or [FileNotFoundError]
    when the temporary file the session names is not there; never
    [IndexError].  When it raises, it leaves the world as it found it. *)
Theorem col2_raises (w w' : Wd) m e :
  session_wf lib w ->
  col2 lib m w = (Raise e, w') ->
  w' = w /\
  exists s, session_state w = Some s /\
    ((exists k, e = KeyError k /\ names lib m !! k = None /\
                ~ labelled (names lib m) (raw_detections (s_results s))) \/
     (e = FileNotFoundError (s_temp_file_path s) /\
      files w !! s_temp_file_path s = None /\
      labelled (names lib m) (raw_detections (s_results s)))).
Proof.
  intros Hwf H. unfold col2 in H.
  destruct (session_state w) as [s|] eqn:Hs; [|discriminate].
  destruct (Hwf s Hs) as (r0 & Hr0 & _).
  unfold bind, lift in H.
  destruct (detected_classes (names lib m) (s_results s)) as [ds|e1] eqn:Hd.
  - destruct (summary_after_listing _ _ _ _ Hd Hr0) as [sm Hsm].
    rewrite Hsm in H. unfold os_remove, ret in H.
    assert (Hlab : labelled (names lib m) (raw_detections (s_results s))).
    { apply detected_classes_Ok in Hd. clear -Hd. unfold labelled.
      induction Hd as [|b d bs ds' (Hi & _ & Hn) _ IH]; constructor; [|done].
      by rewrite <- Hi, Hn. }
    destruct (files w !! s_temp_file_path s) eqn:Hf; simplify_eq.
    split; [done|]. exists s. split; [done|]. by right.
  - simplify_eq. split; [done|]. exists s. split; [done|]. left.
    apply detected_classes_Raise in Hd as (b & Hin & -> & Hb).
    eexists. repeat split; try done.
    unfold labelled. rewrite Forall_forall. intros Hall.
    apply list_elem_of_In in Hin. destruct (Hall b Hin) as [x Hx]. congruence.
Qed.

(** A run without "Analyze" that raises leaves a world in which the same
    run raises the same exception again, and changes nothing any more:
    the failure stays until something else is uploaded or analysed. *)
Theorem failed_run_repeats (w w' : Wd) uploaded_file e :
  script lib uploaded_file false w = (Raise e, w') ->
  script lib uploaded_file false w' = (Raise e, w').
Proof.
  intros H. run_cases; simpl in *; congruence.
Qed.

(** What a run that gets through an analysis must have done. *)
Lemma script_analysis_inv (w w' : Wd) bytes r :
  script lib (Some bytes) true w = (Ok r, w') ->
  exists m w1 image data results arr,
    load_model lib w = (Ok m, w1) /\
    Image_open lib bytes = Some image /\
    st_image lib image = true /\
    Image_save_jpg lib image = Some data /\
    predict lib m data = Some results /\
    (exists r0, results !! 0%nat = Some r0 /\ plot r0 = Some arr) /\
    (exists tab, r = Some tab /\
       detected_classes (names lib m) results = Ok (shown tab) /\
       detection_summary (names lib m) results = Ok (summary tab)) /\
    w' = mkWorld (cache w1) (loads w1)
           (Some (mkSession results arr (Image_fromarray lib arr) (tmp w1)))
           (files w1) ((tmp w1, Some data) :: inferences w1).
Proof.
  intros H. pose proof (tmp_fresh w) as Hf. unfold tmp in *.
  run_cases; simpl in *.
  all: eexists _, _, _, _, _, _; repeat split; eauto.
  all: rewrite insert_insert_eq, delete_insert_id by done; reflexivity.
Qed.

(** What tab 1 shows at the end of a run in which "Analyze" was pressed is
    never an earlier result: it is the listing and the summary of what the
    model returned for the JPEG encoding of the image uploaded in this
    run.  Such a run leaves the file system as it found it. *)
Theorem shown_results_are_current (w w' : Wd) bytes r :
  script lib (Some bytes) true w = (Ok r, w') ->
  exists tab m image data results,
    r = Some tab /\
    cache w' = Some m /\
    Image_open lib bytes = Some image /\
    Image_save_jpg lib image = Some data /\
    predict lib m data = Some results /\
    detected_classes (names lib m) results = Ok (shown tab) /\
    detection_summary (names lib m) results = Ok (summary tab) /\
    files w' = files w.
Proof.
  intros H. apply script_analysis_inv in H
    as (m & w1 & image & data & results & arr & Hl & Ho & Hi & Hs & Hp & _ &
        (tab & -> & Hd & Hsm) & ->).
  apply load_model_Ok in Hl as (Hc & _ & Hfiles & _).
  exists tab, m, image, data, results. simpl. by repeat split.
Qed.

(** After a run that got through an analysis, the session state names a
    temporary file that is gone: the next run without "Analyze", on any
    upload that decodes or on none, lists the stored results again and
    ends in [os.remove] with [FileNotFoundError], changing nothing. *)
Theorem rerun_after_analysis_raises (w w' : Wd) bytes r uploaded_file :
  script lib (Some bytes) true w = (Ok r, w') ->
  decodes lib uploaded_file ->
  script lib uploaded_file false w' =
    (Raise (FileNotFoundError (tmp w)), w').
Proof.
  intros H Hdec. apply script_analysis_inv in H
    as (m & w1 & image & data & results & arr & Hl & _ & _ & _ & _ & _ &
        (tab & -> & Hd & Hsm) & ->).
  apply load_model_Ok in Hl as (Hc & _ & Hfiles & _).
  assert (Ht : tmp w1 = tmp w) by (unfold tmp; by rewrite Hfiles).
  pose proof (tmp_fresh w1) as Hf. rewrite Ht in *.
  unfold script, bind, load_model. simpl. rewrite Hc.
  assert (Hcol2 : forall w2 : Wd,
            session_state w2 =
              Some (mkSession results arr (Image_fromarray lib arr) (tmp w)) ->
            files w2 = files w1 ->
            col2 lib m w2 = (Raise (FileNotFoundError (tmp w)), w2)).
  { intros w2 Hs2 Hf2. unfold col2. rewrite Hs2. simpl.
    unfold bind, lift. rewrite Hd, Hsm. unfold os_remove.
    by rewrite Hf2, Hf. }
  unfold col1. destruct uploaded_file as [b2|]; simpl in Hdec.
  - destruct Hdec as (im2 & Ho2 & Hi2).
    unfold of_option. rewrite Ho2. unfold bind, ret. rewrite Hi2.
    by apply Hcol2.
  - unfold ret. by apply Hcol2.
Qed.

(** With the model available and the upload decoded, the run of an
    analysis leaves the file system as it found it exactly when it does
    not raise; whenever it raises, at whatever line, the temporary file it
    created is left behind as one new file. *)
Theorem analysis_releases_file_iff_success (w w1 : Wd) m bytes image :
  load_model lib w = (Ok m, w1) ->
  Image_open lib bytes = Some image ->
  st_image lib image = true ->
  files w !! tmp w = None /\
  match script lib (Some bytes) true w with
  | (Ok _, w') => files w' = files w
  | (Raise _, w') => exists c, files w' = <[tmp w := c]> (files w)
  end.
Proof.
  intros Hl Ho Hi. split; [apply tmp_fresh|].
  pose proof (tmp_fresh w) as Hf. unfold tmp in *.
  run_cases; simpl; rewrite ?insert_insert_eq;
    first [ congruence | by rewrite delete_insert_id | by eexists ].
Qed.

End EveryRun.

(** ** The further properties on the test double *)

(** A class emitted as 2.5 is looked up under index 2. *)
Lemma py_int_floor_witness : py_int (Q2Qc (5 # 2)) = 2.
Proof.
  apply (py_int_floor (Q2Qc (5 # 2)) 2).
  - vm_compute. discriminate.
  - vm_compute. reflexivity.
  - lia.
Defined.

(** Two results with one box each: the total is 1, the listing has 2. *)
Lemma summary_counts_first_result_only_witness :
  (1 <= 2)%nat /\
  (1%nat = 2%nat <-> raw_detections (tail Scenes.two_results) = []).
Proof.
  exact (summary_counts_first_result_only Double.labels Scenes.two_results
           [mkDetection 0 "tumor" (Q2Qc (9 # 10));
            mkDetection 1 "no_tumor" (Q2Qc (4 # 10))]
           (mkSummary 1 "tumor" (Q2Qc (9 # 10)))
           eq_refl eq_refl).
Defined.

(** Three runs in a process whose model is loaded. *)
Lemma reruns_keep_model_witness :
  cache (reruns Double.lib
           [(Some ["J"%byte; "1"%byte], true); (None, false);
            (Some ["P"%byte; "1"%byte], true)] Double.warm) = Some tt /\
  loads (reruns Double.lib
           [(Some ["J"%byte; "1"%byte], true); (None, false);
            (Some ["P"%byte; "1"%byte], true)] Double.warm) = 1%nat.
Proof.
  apply (reruns_keep_model Double.lib Double.warm tt). reflexivity.
Defined.

(** The same three runs from a fresh process. *)
Lemma weights_read_at_most_once_witness :
  (loads (reruns Double.lib
            [(Some ["J"%byte; "1"%byte], true); (None, false);
             (Some ["P"%byte; "1"%byte], true)] Double.cold) <= 1)%nat /\
  (is_Some (cache (reruns Double.lib
                     [(Some ["J"%byte; "1"%byte], true); (None, false);
                      (Some ["P"%byte; "1"%byte], true)] Double.cold)) ->
   loads (reruns Double.lib
            [(Some ["J"%byte; "1"%byte], true); (None, false);
             (Some ["P"%byte; "1"%byte], true)] Double.cold) = 1%nat).
Proof.
  apply (weights_read_at_most_once Double.lib Double.cold); reflexivity.
Defined.

(** Without the weights: two runs, then a third. *)
Lemma missing_weights_block_every_run_witness :
  reruns Scenes.lib_without_weights
    [(Some ["J"%byte; "1"%byte], true); (None, false)] Double.cold =
    Double.cold /\
  script Scenes.lib_without_weights (Some ["J"%byte; "1"%byte]) true
    (reruns Scenes.lib_without_weights
       [(Some ["J"%byte; "1"%byte], true); (None, false)] Double.cold) =
    (Raise ModelLoadFailure, Double.cold).
Proof.
  apply (missing_weights_block_every_run Scenes.lib_without_weights
           Double.cold); reflexivity.
Defined.

(** An upload that is only looked at. *)
Lemma idle_run_creates_nothing_witness :
  session_state
    (script Double.lib (Some ["J"%byte; "1"%byte]) false
       Scenes.beside_a_file).2 = session_state Scenes.beside_a_file /\
  inferences
    (script Double.lib (Some ["J"%byte; "1"%byte]) false
       Scenes.beside_a_file).2 = inferences Scenes.beside_a_file /\
  forall p c,
    files (script Double.lib (Some ["J"%byte; "1"%byte]) false
             Scenes.beside_a_file).2 !! p = Some c ->
    files Scenes.beside_a_file !! p = Some c.
Proof.
  apply (idle_run_creates_nothing Double.lib Scenes.beside_a_file
           (Some ["J"%byte; "1"%byte]) false).
  left. reflexivity.
Defined.

(** An analysis next to somebody else's file. *)
Lemma other_files_untouched_witness :
  files (script Double.lib (Some ["J"%byte; "1"%byte]) true
           Scenes.beside_a_file).2 !! 5%nat = Some ["k"%byte].
Proof.
  apply (other_files_untouched Double.lib Scenes.beside_a_file
           (Some ["J"%byte; "1"%byte]) true 5%nat ["k"%byte]).
  - reflexivity.
  - intros s Hs. vm_compute in Hs. discriminate.
Defined.

(** Two runs from a fresh process. *)
Lemma reruns_session_wf_witness :
  session_wf Double.lib
    (reruns Double.lib
       [(Some ["J"%byte; "1"%byte], true); (None, false)] Double.cold).
Proof.
  apply (reruns_session_wf Double.lib Double.cold).
  intros s Hs. vm_compute in Hs. discriminate.
Defined.

(** The right column on stored results with a class that has no label. *)
Lemma col2_raises_witness :
  Double.stored_x = Double.stored_x /\
  exists s, session_state Double.stored_x = Some s /\
    ((exists k, KeyError 7 = KeyError k /\ Double.labels !! k = None /\
                ~ labelled Double.labels (raw_detections (s_results s))) \/
     (KeyError 7 = FileNotFoundError (s_temp_file_path s) /\
      files Double.stored_x !! s_temp_file_path s = None /\
      labelled Double.labels (raw_detections (s_results s)))).
Proof.
  apply (col2_raises Double.lib Double.stored_x Double.stored_x tt
           (KeyError 7)).
  - intros s Hs. injection Hs as <-. eexists.
    split; [reflexivity|]. split; reflexivity.
  - reflexivity.
Defined.

(** The empty upload, looked at twice. *)
Lemma failed_run_repeats_witness :
  script Double.lib (Some []) false Double.warm =
    (Raise UnidentifiedImageError, Double.warm).
Proof.
  apply (failed_run_repeats Double.lib Double.cold Double.warm (Some [])
           UnidentifiedImageError).
  reflexivity.
Defined.

(** An analysis of the one-box scene in a fresh process. *)
Lemma shown_results_are_current_witness :
  exists tab m image data results,
    Some (mkTab1 [mkDetection 0 "tumor" (Q2Qc (3 # 10))]
                 (mkSummary 1 "tumor" (Q2Qc (3 # 10)))) = Some tab /\
    cache Scenes.analysed_1 = Some m /\
    Image_open Double.lib ["J"%byte; "1"%byte] = Some image /\
    Image_save_jpg Double.lib image = Some data /\
    predict Double.lib m data = Some results /\
    detected_classes (names Double.lib m) results = Ok (shown tab) /\
    detection_summary (names Double.lib m) results = Ok (summary tab) /\
    files Scenes.analysed_1 = files Double.cold.
Proof.
  apply (shown_results_are_current Double.lib Double.cold Scenes.analysed_1
           ["J"%byte; "1"%byte]).
  reflexivity.
Defined.

(** The run after that analysis, with the same upload still in place. *)
Lemma rerun_after_analysis_raises_witness :
  script Double.lib (Some ["J"%byte; "1"%byte]) false Scenes.analysed_1 =
    (Raise (FileNotFoundError (tmp Double.cold)), Scenes.analysed_1).
Proof.
  apply (rerun_after_analysis_raises Double.lib Double.cold Scenes.analysed_1
           ["J"%byte; "1"%byte]
           (Some (mkTab1 [mkDetection 0 "tumor" (Q2Qc (3 # 10))]
                         (mkSummary 1 "tumor" (Q2Qc (3 # 10)))))
           (Some ["J"%byte; "1"%byte])).
  - reflexivity.
  - eexists. split; reflexivity.
Defined.

(** An analysis whose plot raises leaves its temporary file. *)
Lemma analysis_releases_file_iff_success_witness :
  files Double.cold !! tmp Double.cold = None /\
  exists c,
    files (after_inference Double.warm ["J"%byte; "p"%byte]) =
      <[tmp Double.cold := c]> (files Double.cold).
Proof.
  exact (analysis_releases_file_iff_success Double.lib Double.cold Double.warm
           tt ["J"%byte; "p"%byte] (Double.mkImg Double.RGB true "p"%byte)
           eq_refl eq_refl eq_refl).
Defined.
